(** * Ser Livre Psicologia: the static build of the landing page

    A shallow embedding of the page as the repository describes it:
    [src/layouts/Layout.astro] (src/specs/PLAN.md section 4 and section 8),
    [src/pages/index.astro] (PLAN.md section 6), the eight section
    components (PLAN.md section 6, STUDY.md sections 3 and 13), the
    asset placement of PLAN.md section 7 and the static output of
    [src/astro.config.mjs] ([output: 'static']).

    Rendering produces a document tree; serialisation follows the Astro
    renderer: text from a [{expr}] expression is HTML-escaped, an attribute
    is printed by Astro's [addAttribute], and the body of a [<script>]
    carrying an attribute other than [src] is emitted inline, unprocessed.
    The output directory is written file by file, a later write replacing
    an earlier one at the same path. *)

From Stdlib Require Import Strings.String Strings.Ascii List Bool Lia.
From Stdlib Require Import Sorting.Permutation.
Import ListNotations.
Open Scope list_scope.
Open Scope string_scope.

(** List append, next to the string append of [string_scope]. *)
Infix "++ₗ" := app (right associativity, at level 60).

(** ** Characters and strings *)

(** The double-quote character, ASCII 34. *)
Definition dq_c : ascii := ascii_of_nat 34.
Definition dq : string := String dq_c EmptyString.

(** Text escaping of an [{expr}] child (html-escaper's [escape], used by
    Astro's [escapeHTML]): ampersand, less-than, greater-than, double quote
    and apostrophe become entity references. *)
Definition escape_text_char (c : ascii) : string :=
  if Ascii.eqb c "&" then "&amp;"
  else if Ascii.eqb c "<" then "&lt;"
  else if Ascii.eqb c ">" then "&gt;"
  else if Ascii.eqb c dq_c then "&quot;"
  else if Ascii.eqb c "'" then "&#39;"
  else String c EmptyString.

Fixpoint escape_text (s : string) : string :=
  match s with
  | EmptyString => EmptyString
  | String c r => escape_text_char c ++ escape_text r
  end.

(** Attribute escaping of a dynamic attribute (Astro's [toAttributeString]):
    [&] becomes [&#38;] and the double quote becomes [&#34;]. *)
Definition escape_attr_char (c : ascii) : string :=
  if Ascii.eqb c "&" then "&#38;"
  else if Ascii.eqb c dq_c then "&#34;"
  else String c EmptyString.

Fixpoint escape_attr (s : string) : string :=
  match s with
  | EmptyString => EmptyString
  | String c r => escape_attr_char c ++ escape_attr r
  end.

(** Character-reference decoding as a browser does it when it reads the
    text of [<title>] or an attribute value, for the references the
    escapers above produce; any other [&] is kept literally. *)
Fixpoint decode (s : string) : string :=
  match s with
  | EmptyString => EmptyString
  | String c r =>
    if Ascii.eqb c "&" then
      match r with
      | String "a" (String "m" (String "p" (String ";" r'))) => String "&" (decode r')
      | String "l" (String "t" (String ";" r')) => String "<" (decode r')
      | String "g" (String "t" (String ";" r')) => String ">" (decode r')
      | String "q" (String "u" (String "o" (String "t" (String ";" r')))) =>
          String dq_c (decode r')
      | String "#" (String "3" (String "9" (String ";" r'))) => String "'" (decode r')
      | String "#" (String "3" (String "8" (String ";" r'))) => String "&" (decode r')
      | String "#" (String "3" (String "4" (String ";" r'))) => String dq_c (decode r')
      | _ => String "&" (decode r)
      end
    else String c (decode r)
  end.

(** [needle] occurs in [hay]. *)
Fixpoint contains (needle hay : string) : bool :=
  prefix needle hay ||
  match hay with
  | EmptyString => false
  | String _ r => contains needle r
  end.

(** [s] contains the character [c]. *)
Fixpoint has_char (c : ascii) (s : string) : bool :=
  match s with
  | EmptyString => false
  | String d r => Ascii.eqb c d || has_char c r
  end.

(** ** Document trees *)

Set Warnings "-register-all".
Inductive node : Type :=
  | Elem (tag : string) (attrs : list (string * string)) (kids : list node)
  | Text (s : string)
  | Raw (s : string).

(** Elements serialised without a closing tag. *)
Definition void_tag (t : string) : bool :=
  existsb (String.eqb t) ["meta"; "link"; "img"].

(** Lower-casing of ASCII letters, for the case-insensitive tests. *)
Definition lower_char (c : ascii) : ascii :=
  let n := nat_of_ascii c in
  if Nat.leb 65 n && Nat.leb n 90 then ascii_of_nat (n + 32) else c.

Fixpoint lower (s : string) : string :=
  match s with
  | EmptyString => EmptyString
  | String c r => String (lower_char c) (lower r)
  end.

(** [htmlBooleanAttributes] of Astro's runtime (the regular expression is
    anchored and case-insensitive). *)
Definition html_boolean_attributes : list string :=
  ["allowfullscreen"; "async"; "autofocus"; "autoplay"; "checked"; "controls";
   "default"; "defer"; "disabled"; "disablepictureinpicture";
   "disableremoteplayback"; "formnovalidate"; "hidden"; "inert"; "loop";
   "nomodule"; "novalidate"; "open"; "playsinline"; "readonly"; "required";
   "reversed"; "scoped"; "seamless"; "selected"; "itemscope"].

Definition is_boolean_attribute (k : string) : bool :=
  existsb (String.eqb (lower k)) html_boolean_attributes.

Section Serialize.
(** Astro's [isHttpUrl]: [new URL(value)] succeeds with protocol [http:] or
    [https:]. The WHATWG URL parser is not modelled; every statement below
    holds whatever this test answers. *)
Variable is_http_url : string -> bool.

(** Astro's [addAttribute(value, key)] for a string value, branch by branch:
    the [set:] directives print nothing; [className] prints as [class];
    a value holding [&] that is an http(s) URL is printed unescaped
    ([toAttributeString(value, false)]); a boolean attribute prints its bare
    key when the value is non-empty; an empty value prints the bare key;
    any other value is printed with [toAttributeString], which escapes [&]
    and the double quote. The [class:list] and [style] branches take
    non-string values and are never reached here. The static attributes of
    the templates, which the compiler prints as written, hold no [&], no
    double quote and no empty value, so [addAttribute] prints them as
    written too. *)
Definition add_attribute (k v : string) : string :=
  if String.eqb k "set:html" || String.eqb k "set:text" then EmptyString
  else if String.eqb k "className" then " class=" ++ dq ++ escape_attr v ++ dq
  else if has_char "&" v && is_http_url v then " " ++ k ++ "=" ++ dq ++ v ++ dq
  else if is_boolean_attribute k then
    (if String.eqb v "" then EmptyString else " " ++ k)
  else if String.eqb v "" then " " ++ k
  else " " ++ k ++ "=" ++ dq ++ escape_attr v ++ dq.

Fixpoint serialize_attrs (attrs : list (string * string)) : string :=
  match attrs with
  | [] => EmptyString
  | (k, v) :: rest => add_attribute k v ++ serialize_attrs rest
  end.

Fixpoint serialize (n : node) : string :=
  match n with
  | Text s => escape_text s
  | Raw s => s
  | Elem t attrs kids =>
      "<" ++ t ++ serialize_attrs attrs ++ ">" ++
      (fix go (l : list node) : string :=
         match l with
         | [] => EmptyString
         | k :: ks => serialize k ++ go ks
         end) kids ++
      (if void_tag t then EmptyString else "</" ++ t ++ ">")
  end.

Definition serialize_list (l : list node) : string :=
  fold_right (fun k acc => serialize k ++ acc) EmptyString l.
End Serialize.

(** ** Layout.astro *)

(** [interface Props { title?: string; description?: string }] *)
Record Props : Type := mkProps {
  title : option string;
  description : option string
}.

Definition default_title : string :=
  "Ser Livre Psicologia | Rhayane Miranda - Psicoterapia Online".

Definition default_description : string :=
  "Psicoterapia online com escuta sensível, acolhedora e atenta às vivências das mulheres. Rhayane Miranda, Psicóloga Clínica CRP 01/28820.".

(** [const { title = ..., description = ... } = Astro.props] *)
Definition props_title (p : Props) : string :=
  match title p with Some t => t | None => default_title end.

Definition props_description (p : Props) : string :=
  match description p with Some d => d | None => default_description end.

(** The favicon links (PLAN.md section 4, STUDY.md section 10), addressing
    the files of [public/] by absolute path. *)
Definition favicon_links : list node :=
  [ Elem "link" [("rel", "icon"); ("media", "(prefers-color-scheme: light)");
                 ("href", "/icon-light-32x32.png")] [];
    Elem "link" [("rel", "icon"); ("media", "(prefers-color-scheme: dark)");
                 ("href", "/icon-dark-32x32.png")] [];
    Elem "link" [("rel", "icon"); ("href", "/icon.svg"); ("type", "image/svg+xml")] [];
    Elem "link" [("rel", "apple-touch-icon"); ("href", "/apple-icon.png")] [] ].

(** The analytics script of PLAN.md section 8. Its tag carries a [type] attribute,
    so Astro leaves it inline and unprocessed. *)
Definition analytics_source : string :=
  "
  import { inject } from '@vercel/analytics'
  inject()
".

Definition analytics_script : node :=
  Elem "script" [("type", "module")] [Raw analytics_source].

(** The skip-to-content link. *)
Definition skip_target : string := "conteudo-principal".

Definition skip_anchor : node :=
  Elem "a" [("href", "#" ++ skip_target);
            ("class", "sr-only focus:not-sr-only")]
       [Text "Ir para o conteúdo"].

Definition layout_head (p : Props) : list node :=
  [ Elem "meta" [("charset", "utf-8")] [];
    Elem "meta" [("name", "viewport"); ("content", "width=device-width, initial-scale=1")] [];
    Elem "meta" [("name", "theme-color"); ("content", "#F5F0EB")] [];
    Elem "title" [] [Text (props_title p)];
    Elem "meta" [("name", "description"); ("content", props_description p)] [] ]
  ++ₗ favicon_links ++ₗ [analytics_script].

(** [Layout.astro]: the document shell around the page's [<slot />]. *)
Definition render_layout (p : Props) (slot : list node) : node :=
  Elem "html" [("lang", "pt-BR")]
    [ Elem "head" [] (layout_head p);
      Elem "body" [] (skip_anchor :: slot) ].

Definition head_of (doc : node) : list node :=
  match doc with
  | Elem "html" _ (Elem "head" _ h :: _) => h
  | _ => []
  end.

Definition body_of (doc : node) : list node :=
  match doc with
  | Elem "html" _ [_; Elem "body" _ b] => b
  | _ => []
  end.

(** ** The section components and index.astro *)

(** The eight section components of [src/components/sections/]. *)
Inductive section_kind : Type :=
  | Header | HeroSection | ForWhomSection | AboutSection
  | ApproachSection | HowItWorksSection | CtaSection | Footer.

(** A use of a section component in a page. [interactive] is a
    [client:*] directive on that use (PLAN.md decisions: none on the page).
    The sections are [.astro] components (PLAN.md section 6): Astro warns
    about a [client:*] directive on such a component and renders it
    statically all the same. *)
Record SectionNode : Type := mkSection {
  kind : section_kind;
  interactive : bool
}.

(** The root element of each section (STUDY.md section 13: semantic
    sectioning with [<header>], [<section>] and [<footer>]). *)
Definition section_tag (k : section_kind) : string :=
  match k with
  | Header => "header"
  | Footer => "footer"
  | _ => "section"
  end.

(** A child of the page's markup: a section component, or the
    [<main id=...>] wrapper around some of them. *)
Inductive item : Type :=
  | ISec (s : SectionNode)
  | IMain (id : string) (ss : list SectionNode).

Section Page.
(** The markup inside each section's root element. *)
Variable section_content : section_kind -> list node.

Definition render_section (k : section_kind) : node :=
  Elem (section_tag k) [] (section_content k).

(** An [.astro] component renders to its markup whatever directive its
    use carries: no island, no hydration script. *)
Definition render_section_node (s : SectionNode) : node :=
  render_section (kind s).

Definition render_item (i : item) : node :=
  match i with
  | ISec s => render_section_node s
  | IMain id ss => Elem "main" [("id", id)] (map render_section_node ss)
  end.

(** A page: the layout with the page's items in its slot. *)
Definition render_page (p : Props) (items : list item) : node :=
  render_layout p (map render_item items).
End Page.

Definition static_section (k : section_kind) : SectionNode := mkSection k false.

(** [src/pages/index.astro]: [<Layout>] with no props, [<Header />], the
    six middle sections inside [<main id="conteudo-principal">], then
    [<Footer />]. *)
Definition index_items : list item :=
  [ ISec (static_section Header);
    IMain "conteudo-principal"
      (map static_section [HeroSection; ForWhomSection; AboutSection;
                           ApproachSection; HowItWorksSection; CtaSection]);
    ISec (static_section Footer) ].

Definition index_props : Props := mkProps None None.

(** The sections of a page in declaration order. *)
Definition declared_sections (items : list item) : list SectionNode :=
  flat_map (fun i => match i with ISec s => [s] | IMain _ ss => ss end) items.

(** The section subtrees of a document in document order: the children of
    [<body>] after the skip link, with a [<main>] wrapper spliced. *)
Definition splice_main (n : node) : list node :=
  match n with
  | Elem "main" _ kids => kids
  | _ => [n]
  end.

Definition doc_section_trees (doc : node) : list node :=
  match body_of doc with
  | _ :: rest => flat_map splice_main rest
  | [] => []
  end.

(** Landmark-bearing elements. *)
Definition is_landmark (t : string) : bool :=
  existsb (String.eqb t) ["header"; "nav"; "main"; "aside"; "form"; "search"; "footer"].

Fixpoint first_landmark (n : node) : option node :=
  match n with
  | Elem t _ kids =>
      if is_landmark t then Some n
      else (fix go (l : list node) : option node :=
              match l with
              | [] => None
              | k :: ks => match first_landmark k with
                           | Some x => Some x
                           | None => go ks
                           end
              end) kids
  | _ => None
  end.

Definition first_landmark_list (l : list node) : option node :=
  fold_right (fun k acc => match first_landmark k with
                           | Some x => Some x
                           | None => acc
                           end) None l.

(** The first element, in document order, whose [id] is [v]. *)
Fixpoint find_id (v : string) (n : node) : option node :=
  match n with
  | Elem _ attrs kids =>
      if existsb (fun kv => String.eqb (fst kv) "id" && String.eqb (snd kv) v) attrs
      then Some n
      else (fix go (l : list node) : option node :=
              match l with
              | [] => None
              | k :: ks => match find_id v k with
                           | Some x => Some x
                           | None => go ks
                           end
              end) kids
  | _ => None
  end.

(** The number of [<a>] elements whose [href] is [h]. *)
Fixpoint count_links (h : string) (n : node) : nat :=
  match n with
  | Elem t attrs kids =>
      (if String.eqb t "a" && existsb (fun kv => String.eqb (fst kv) "href" && String.eqb (snd kv) h) attrs
       then 1 else 0) +
      (fix go (l : list node) : nat :=
         match l with
         | [] => 0
         | k :: ks => count_links h k + go ks
         end) kids
  | _ => 0
  end.

Definition count_links_list (h : string) (l : list node) : nat :=
  fold_right (fun k acc => count_links h k + acc) 0 l.

(** The outline of each section's markup as PLAN.md section 6 and
    STUDY.md section 1 describe it (copy text left out). *)
Definition whatsapp : string := "https://wa.me/5561999335952".

Definition planned_content (k : section_kind) : list node :=
  match k with
  | Header =>
      [ Elem "a" [("href", "#")] [Elem "img" [("src", "brand-logo.png"); ("width", "36")] []];
        Elem "a" [("href", whatsapp)] [] ]
  | HeroSection =>
      [ Elem "img" [("src", "rhayane-portrait.jpg"); ("loading", "eager")] [];
        Elem "h1" [] []; Elem "a" [("href", whatsapp)] [] ]
  | ForWhomSection => [ Elem "h2" [] []; Elem "ul" [] [] ]
  | AboutSection =>
      [ Elem "h2" [] []; Elem "img" [("src", "brand-logo.png"); ("width", "320")] [] ]
  | ApproachSection => [ Elem "h2" [] [] ]
  | HowItWorksSection => [ Elem "h2" [] [] ]
  | CtaSection => [ Elem "h2" [] []; Elem "a" [("href", whatsapp)] [] ]
  | Footer =>
      [ Elem "img" [("src", "brand-logo.png"); ("width", "32")] [];
        Elem "a" [("href", "mailto:")] []; Elem "a" [("href", whatsapp)] [];
        Elem "a" [("href", "https://instagram.com/")] [] ]
  end.

Definition index_document : node :=
  render_page planned_content index_props index_items.

(** ** Static emission *)

Inductive artifact_kind : Type :=
  | EntryDocument | StyleBundle | ScriptBundle | ImageVariant | PublicFile | SitemapFile.

(** An output file. [runtime] marks a script that carries client-side
    component runtime (the React renderer or a hydrated component). *)
Record artifact : Type := mkArtifact {
  logical_path : string;
  akind : artifact_kind;
  bytes : string;
  runtime : bool
}.

(** The integrations of [astro.config.mjs]: [integrations: [react(), sitemap()]]. *)
Inductive integration : Type := React | Sitemap.

Definition astro_integrations : list integration := [React; Sitemap].

Definition is_react (i : integration) : bool :=
  match i with React => true | Sitemap => false end.

(** An image variant of [astro:assets]: the source image (its base name and
    bytes), the transform options, the output extension and the encoded
    bytes. *)
Record variant : Type := mkVariant {
  v_base : string;
  v_source : string;
  v_options : string;
  v_ext : string;
  v_bytes : string
}.

(** The output directory: writing a file replaces any file at its path. *)
Definition write_file (d : list artifact) (a : artifact) : list artifact :=
  a :: filter (fun b => negb (String.eqb (logical_path b) (logical_path a))) d.

Definition write_all (d : list artifact) (l : list artifact) : list artifact :=
  fold_left write_file l d.

Definition lookup_path (d : list artifact) (path : string) : option artifact :=
  find (fun a => String.eqb (logical_path a) path) d.

Section Emission.
(** Astro's [isHttpUrl], as in [serialize]. *)
Variable is_http_url : string -> bool.
(** The content hash of Vite's output names. *)
Variable hash : string -> string.
(** The bytes of the React renderer's client entrypoint. *)
Variable renderer_client : string.
(** The two files [@astrojs/sitemap] writes. *)
Variable sitemap_index : string.
Variable sitemap_0 : string.

(** Vite's default naming of processed assets: [_astro/[name].[hash][ext]]. *)
Definition hashed_path (base ext key : string) : string :=
  "/_astro/" ++ base ++ "." ++ hash key ++ ext.

Definition hashed_artifact (k : artifact_kind) (base ext bytes : string) (rt : bool) : artifact :=
  mkArtifact (hashed_path base ext bytes) k bytes rt.

(** [react()] registers the React renderer, whose client entrypoint Astro
    bundles on every build as [_astro/client.[hash].js]. The sections are
    [.astro] components, which never hydrate, so no component chunk is
    emitted. *)
Definition client_scripts : list artifact :=
  if existsb is_react astro_integrations
  then [hashed_artifact ScriptBundle "client" ".js" renderer_client true]
  else [].

(** Astro's name for an image variant ([propsToFilename]): the base name
    of the processed source, [<name>.<hash of the source>], then [_] and
    the hash of the transform (source and options), then the extension. *)
Definition variant_path (v : variant) : string :=
  "/_astro/" ++ v_base v ++ "." ++ hash (v_source v) ++ "_" ++
  hash (v_source v ++ v_options v) ++ v_ext v.

Definition variant_artifact (v : variant) : artifact :=
  mkArtifact (variant_path v) ImageVariant (v_bytes v) false.

(** The files of [public/] are copied to the output root as they are. *)
Definition public_artifact (f : string * string) : artifact :=
  mkArtifact ("/" ++ fst f) PublicFile (snd f) false.

(** [@astrojs/sitemap] writes its files in the [astro:build:done] hook,
    after everything else. *)
Definition sitemap_outputs : list artifact :=
  [mkArtifact "/sitemap-index.xml" SitemapFile sitemap_index false;
   mkArtifact "/sitemap-0.xml" SitemapFile sitemap_0 false].

(** The files the build generates for a page, in the order they are
    written: the entry document, the stylesheet bundle, the client
    scripts, the image variants and the sitemap. *)
Definition generated (content : section_kind -> list node) (p : Props) (items : list item)
    (stylesheet : string) (variants : list variant) : list artifact :=
  [mkArtifact "/index.html" EntryDocument (serialize is_http_url (render_page content p items)) false;
   hashed_artifact StyleBundle "index" ".css" stylesheet false]
  ++ₗ client_scripts
  ++ₗ map variant_artifact variants
  ++ₗ sitemap_outputs.

(** [astro build] with [output: 'static']: the copy of [public/], then the
    generated files, in write order. *)
Definition build (content : section_kind -> list node) (p : Props) (items : list item)
    (stylesheet : string) (variants : list variant)
    (public_files : list (string * string)) : list artifact :=
  map public_artifact public_files ++ₗ generated content p items stylesheet variants.

(** The output directory [dist/] after the build. *)
Definition dist (content : section_kind -> list node) (p : Props) (items : list item)
    (stylesheet : string) (variants : list variant)
    (public_files : list (string * string)) : list artifact :=
  write_all [] (build content p items stylesheet variants public_files).
End Emission.

(** Modelled from the spec: the Runtime Elision Check (spec section 4.6; the
    manual inspection of PLAN.md section 9). It fails with
    [UnexpectedRuntime] when a script bundle carries component runtime
    while no section opts into interactivity. *)
Inductive check_result : Type := CheckOk | UnexpectedRuntime.

Definition runtime_elision_check (ss : list SectionNode) (arts : list artifact) : check_result :=
  if forallb (fun s => negb (interactive s)) ss
     && existsb (fun a => match akind a with ScriptBundle => runtime a | _ => false end) arts
  then UnexpectedRuntime else CheckOk.


Definition href_of (n : node) : option string :=
  match n with
  | Elem _ attrs _ =>
      option_map snd (find (fun kv => String.eqb (fst kv) "href") attrs)
  | _ => None
  end.

(** Characters the escapers rewrite. *)
Definition text_special (c : ascii) : bool :=
  Ascii.eqb c "&" || Ascii.eqb c "<" || Ascii.eqb c ">" || Ascii.eqb c dq_c || Ascii.eqb c "'".

Definition attr_special (c : ascii) : bool :=
  Ascii.eqb c "&" || Ascii.eqb c dq_c.

Fixpoint plain_text (s : string) : bool :=
  match s with
  | EmptyString => true
  | String c r => negb (text_special c) && plain_text r
  end.

Fixpoint plain_attr (s : string) : bool :=
  match s with
  | EmptyString => true
  | String c r => negb (attr_special c) && plain_attr r
  end.

Definition tag_of (n : node) : string :=
  match n with Elem t _ _ => t | _ => EmptyString end.

(** ** astro.config.mjs: the [@] alias of [vite.resolve.alias] *)

(** The position of the first occurrence of [find] in [s]. *)
Fixpoint index_of (find s : string) : option nat :=
  if prefix find s then Some 0
  else match s with
       | EmptyString => None
       | String _ r => option_map S (index_of find r)
       end.

(** GetSubstitution of ECMAScript for a string pattern (no captures):
    [$$] gives [$], [$&] the matched text, [$`] the text before the match,
    [$'] the text after it; any other [$] is kept. *)
Fixpoint get_substitution (matched before after repl : string) : string :=
  match repl with
  | EmptyString => EmptyString
  | String c r =>
      if Ascii.eqb c "$" then
        match r with
        | String d r' =>
            if Ascii.eqb d "$" then "$" ++ get_substitution matched before after r'
            else if Ascii.eqb d "&" then matched ++ get_substitution matched before after r'
            else if Ascii.eqb d "`" then before ++ get_substitution matched before after r'
            else if Ascii.eqb d "'" then after ++ get_substitution matched before after r'
            else String c (get_substitution matched before after r)
        | EmptyString => String c EmptyString
        end
      else String c (get_substitution matched before after r)
  end.

(** JavaScript [s.replace(find, repl)] with a string pattern: the first
    occurrence of [find] is replaced by the expansion of [repl]. *)
Definition js_replace (find repl s : string) : string :=
  match index_of find s with
  | None => s
  | Some i =>
      let before := substring 0 i s in
      let after := substring (i + String.length find)
                             (String.length s - (i + String.length find)) s in
      before ++ get_substitution find before after repl ++ after
  end.

(** The string-pattern test of Vite's alias plugin: the import id is the
    key itself or starts with the key followed by a slash. *)
Definition alias_matches (key id : string) : bool :=
  if Nat.ltb (String.length id) (String.length key) then false
  else if String.eqb id key then true
  else prefix (key ++ "/") id.

(** An import id rewritten by the first matching alias entry
    ([importee.replace(entry.find, entry.replacement)]). *)
Definition resolve_alias (entries : list (string * string)) (id : string) : string :=
  match find (fun e => alias_matches (fst e) id) entries with
  | Some (key, repl) => js_replace key repl id
  | None => id
  end.

(** [resolve: { alias: { '@': path.resolve('./src') } }], with [src] the
    absolute path of [./src]. *)
Definition vite_aliases (src : string) : list (string * string) := [("@", src)].

(** * Lemmas *)

(** ** Strings *)

Lemma length_app_str (a b : string) : String.length (a ++ b) = String.length a + String.length b.
Proof. induction a as [|c a IH]; simpl; [reflexivity | now rewrite IH]. Qed.

Lemma prefix_app (n x y : string) : prefix n x = true -> prefix n (x ++ y) = true.
Proof.
  revert x; induction n as [|c n IH]; intros x H; [destruct x, y; reflexivity|].
  destruct x as [|d x]; [discriminate|].
  simpl in *. destruct (Ascii.ascii_dec c d); [now apply IH | discriminate].
Qed.

Lemma prefix_self (n y : string) : prefix n (n ++ y) = true.
Proof.
  induction n as [|c n IH]; [destruct y; reflexivity|].
  simpl. destruct (Ascii.ascii_dec c c); [exact IH | contradiction].
Qed.

Lemma contains_app_r (n x y : string) : contains n y = true -> contains n (x ++ y) = true.
Proof.
  intros H; induction x as [|c x IH]; [exact H|].
  change (prefix n (String c (x ++ y)) || contains n (x ++ y) = true).
  rewrite IH. apply orb_true_r.
Qed.

Lemma contains_app_l (n x y : string) : contains n x = true -> contains n (x ++ y) = true.
Proof.
  intros H; induction x as [|c x IH].
  - destruct n; [destruct y; reflexivity|]. discriminate.
  - change (prefix n (String c x) || contains n x = true) in H.
    change (prefix n (String c (x ++ y)) || contains n (x ++ y) = true).
    apply orb_true_iff in H as [H|H]; apply orb_true_iff.
    + left; exact (prefix_app _ _ y H).
    + right; exact (IH H).
Qed.

Lemma contains_self (n y : string) : contains n (n ++ y) = true.
Proof.
  destruct n as [|c n]; [destruct y; reflexivity|].
  change (prefix (String c n) (String c n ++ y) || contains (String c n) (n ++ y) = true).
  now rewrite prefix_self.
Qed.

(** ** Escaping *)

Ltac ascii_case E :=
  match goal with
  | |- context [Ascii.eqb ?c ?d] =>
      destruct (Ascii.eqb c d) eqn:E;
      [apply Ascii.eqb_eq in E; subst c | ]
  end.

Lemma decode_escape_text (s : string) : decode (escape_text s) = s.
Proof.
  induction s as [|c r IH]; [reflexivity|].
  simpl; unfold escape_text_char.
  ascii_case E1; [simpl; now rewrite IH|].
  ascii_case E2; [simpl; now rewrite IH|].
  ascii_case E3; [simpl; now rewrite IH|].
  ascii_case E4; [simpl; now rewrite IH|].
  ascii_case E5; [simpl; now rewrite IH|].
  simpl. rewrite E1. now rewrite IH.
Qed.

Lemma decode_escape_attr (s : string) : decode (escape_attr s) = s.
Proof.
  induction s as [|c r IH]; [reflexivity|].
  simpl; unfold escape_attr_char.
  ascii_case E1; [simpl; now rewrite IH|].
  ascii_case E2; [simpl; now rewrite IH|].
  simpl. rewrite E1. now rewrite IH.
Qed.

Lemma escape_text_char_cases (c : ascii) :
  (text_special c = false /\ escape_text_char c = String c EmptyString) \/
  (text_special c = true /\ 2 <= String.length (escape_text_char c)).
Proof.
  unfold escape_text_char, text_special.
  destruct (Ascii.eqb c "&"); [right; simpl; split; [reflexivity | lia]|].
  destruct (Ascii.eqb c "<"); [right; simpl; split; [reflexivity | lia]|].
  destruct (Ascii.eqb c ">"); [right; simpl; split; [reflexivity | lia]|].
  destruct (Ascii.eqb c dq_c); [right; simpl; split; [reflexivity | lia]|].
  destruct (Ascii.eqb c "'"); [right; simpl; split; [reflexivity | lia]|].
  left; split; reflexivity.
Qed.

Lemma escape_attr_char_cases (c : ascii) :
  (attr_special c = false /\ escape_attr_char c = String c EmptyString) \/
  (attr_special c = true /\ 2 <= String.length (escape_attr_char c)).
Proof.
  unfold escape_attr_char, attr_special.
  destruct (Ascii.eqb c "&"); [right; simpl; split; [reflexivity | lia]|].
  destruct (Ascii.eqb c dq_c); [right; simpl; split; [reflexivity | lia]|].
  left; split; reflexivity.
Qed.

Lemma escape_text_length (s : string) :
  String.length s <= String.length (escape_text s) /\
  (plain_text s = false -> String.length s < String.length (escape_text s)).
Proof.
  induction s as [|c r [IH1 IH2]]; [simpl; split; [lia | discriminate]|].
  simpl; rewrite length_app_str.
  destruct (escape_text_char_cases c) as [[Hs He] | [Hs Hl]].
  - rewrite Hs, He; simpl. split; [lia|]. intros H; specialize (IH2 H); lia.
  - rewrite Hs; simpl. split; [lia | intros _; lia].
Qed.

Lemma escape_attr_length (s : string) :
  String.length s <= String.length (escape_attr s) /\
  (plain_attr s = false -> String.length s < String.length (escape_attr s)).
Proof.
  induction s as [|c r [IH1 IH2]]; [simpl; split; [lia | discriminate]|].
  simpl; rewrite length_app_str.
  destruct (escape_attr_char_cases c) as [[Hs He] | [Hs Hl]].
  - rewrite Hs, He; simpl. split; [lia|]. intros H; specialize (IH2 H); lia.
  - rewrite Hs; simpl. split; [lia | intros _; lia].
Qed.

Lemma escape_text_id (s : string) : escape_text s = s <-> plain_text s = true.
Proof.
  split.
  - intros H. destruct (plain_text s) eqn:P; [reflexivity|].
    pose proof (proj2 (escape_text_length s) P) as L. rewrite H in L. lia.
  - induction s as [|c r IH]; intros H; [reflexivity|].
    simpl in H. apply andb_true_iff in H as [H1 H2].
    simpl. destruct (escape_text_char_cases c) as [[_ He] | [Hs _]].
    + rewrite He, (IH H2). reflexivity.
    + rewrite Hs in H1. discriminate.
Qed.

Lemma escape_attr_id (s : string) : escape_attr s = s <-> plain_attr s = true.
Proof.
  split.
  - intros H. destruct (plain_attr s) eqn:P; [reflexivity|].
    pose proof (proj2 (escape_attr_length s) P) as L. rewrite H in L. lia.
  - induction s as [|c r IH]; intros H; [reflexivity|].
    simpl in H. apply andb_true_iff in H as [H1 H2].
    simpl. destruct (escape_attr_char_cases c) as [[_ He] | [Hs _]].
    + rewrite He, (IH H2). reflexivity.
    + rewrite Hs in H1. discriminate.
Qed.

(** ** Documents *)

Lemma serialize_elem (url : string -> bool) (t : string) (attrs : list (string * string))
    (kids : list node) :
  serialize url (Elem t attrs kids) =
  "<" ++ t ++ serialize_attrs url attrs ++ ">" ++ serialize_list url kids ++
  (if void_tag t then EmptyString else "</" ++ t ++ ">").
Proof.
  simpl. repeat f_equal.
Qed.

Lemma contains_serialize_list (url : string -> bool) (n : string) (k : node) (l : list node) :
  In k l -> contains n (serialize url k) = true -> contains n (serialize_list url l) = true.
Proof.
  induction l as [|k' l IH]; intros Hin Hc; [destruct Hin|].
  simpl. destruct Hin as [<-|Hin].
  - now apply contains_app_l.
  - apply contains_app_r. now apply IH.
Qed.

Lemma head_render_layout (p : Props) (slot : list node) :
  head_of (render_layout p slot) = layout_head p.
Proof. reflexivity. Qed.

Lemma body_render_layout (p : Props) (slot : list node) :
  body_of (render_layout p slot) = skip_anchor :: slot.
Proof. reflexivity. Qed.

Lemma str_app_assoc (a b c : string) : (a ++ b) ++ c = a ++ b ++ c.
Proof. induction a as [|x a IH]; simpl; [reflexivity | now rewrite IH]. Qed.

Lemma str_app_empty_r (a : string) : a ++ EmptyString = a.
Proof. induction a as [|x a IH]; simpl; [reflexivity | now rewrite IH]. Qed.

(** * Claims *)

(** ** C9: page metadata in the document head *)

Lemma add_attribute_content (url : string -> bool) (d : string) :
  add_attribute url "content" d =
  (if has_char "&" d && url d then " content=" ++ dq ++ d ++ dq
   else if String.eqb d "" then " content"
   else " content=" ++ dq ++ escape_attr d ++ dq).
Proof. reflexivity. Qed.

(** C9 (amended). The head of every layout holds a [<title>] element whose
    text is the supplied title and a description [<meta>] whose [content]
    is the supplied description. The title is serialised HTML-escaped
    (ampersand, angle brackets, double quote, apostrophe); decoding gives
    it back exactly, and the bytes equal it exactly when it holds none of
    those characters. The description goes through [addAttribute]: empty,
    it is a bare [content] attribute; holding [&] and taken for an http(s)
    URL, it is printed as is between double quotes; otherwise it is
    printed between double quotes with ampersand and double quote escaped,
    decoding gives it back exactly, and the bytes equal it exactly when it
    holds neither character. *)
Theorem layout_metadata_escaped (url : string -> bool) (t d : string) (slot : list node) :
  In (Elem "title" [] [Text t]) (head_of (render_layout (mkProps (Some t) (Some d)) slot)) /\
  In (Elem "meta" [("name", "description"); ("content", d)] [])
     (head_of (render_layout (mkProps (Some t) (Some d)) slot)) /\
  serialize url (Elem "title" [] [Text t]) = "<title>" ++ escape_text t ++ "</title>" /\
  serialize url (Elem "meta" [("name", "description"); ("content", d)] []) =
    "<meta name=" ++ dq ++ "description" ++ dq ++ add_attribute url "content" d ++ ">" /\
  add_attribute url "content" d =
    (if has_char "&" d && url d then " content=" ++ dq ++ d ++ dq
     else if String.eqb d "" then " content"
     else " content=" ++ dq ++ escape_attr d ++ dq) /\
  decode (escape_text t) = t /\
  decode (escape_attr d) = d /\
  (escape_text t = t <-> plain_text t = true) /\
  (escape_attr d = d <-> plain_attr d = true).
Proof.
  rewrite head_render_layout.
  split; [simpl; tauto|].
  split; [simpl; tauto|].
  split; [simpl; now rewrite str_app_empty_r|].
  split.
  { rewrite serialize_elem. cbn [serialize_attrs serialize_list fold_right].
    rewrite (str_app_empty_r (add_attribute url "content" d)). reflexivity. }
  split; [apply add_attribute_content|].
  split; [apply decode_escape_text|].
  split; [apply decode_escape_attr|].
  split; [apply escape_text_id | apply escape_attr_id].
Qed.

(** C9 (counterexample). With the title [A & B], the emitted entry document
    does not contain the supplied title: it holds [A &amp; B] instead. The
    description [x] holds no [&], so the URL test is never consulted. *)
Lemma title_not_verbatim_in_document :
  contains "A & B"
    (serialize (fun _ => false)
       (render_page planned_content (mkProps (Some "A & B") (Some "x")) index_items)) = false /\
  contains "<title>A &amp; B</title>"
    (serialize (fun _ => false)
       (render_page planned_content (mkProps (Some "A & B") (Some "x")) index_items)) = true.
Proof. split; vm_compute; reflexivity. Qed.

(** ** C4: section order *)

Lemma splice_main_section (c : section_kind -> list node) (s : SectionNode) :
  splice_main (render_section_node c s) = [render_section_node c s].
Proof. destruct s as [[] []]; reflexivity. Qed.

Lemma doc_section_trees_page (c : section_kind -> list node) (p : Props) (items : list item) :
  doc_section_trees (render_page c p items) = map (render_section_node c) (declared_sections items).
Proof.
  unfold doc_section_trees, render_page. rewrite body_render_layout.
  induction items as [|[s | id ss] items IH]; [reflexivity| |].
  - cbn [map flat_map render_item declared_sections app].
    rewrite splice_main_section. cbn [app]. now rewrite IH.
  - simpl. rewrite map_app. now rewrite IH.
Qed.

(** C4. For any declared list of page items and any permutation of it, the
    section subtrees of the composed document appear in declaration order,
    in both orders; the head is the same; the body after the skip link is
    the declared items rendered position by position, so the two bodies are
    the same permutation of each other. *)
Theorem page_order_preserved (c : section_kind -> list node) (p : Props)
    (items items' : list item) (Hperm : Permutation items items') :
  doc_section_trees (render_page c p items) = map (render_section_node c) (declared_sections items) /\
  doc_section_trees (render_page c p items') = map (render_section_node c) (declared_sections items') /\
  head_of (render_page c p items') = head_of (render_page c p items) /\
  body_of (render_page c p items) = skip_anchor :: map (render_item c) items /\
  body_of (render_page c p items') = skip_anchor :: map (render_item c) items' /\
  Permutation (body_of (render_page c p items)) (body_of (render_page c p items')).
Proof.
  split; [apply doc_section_trees_page|].
  split; [apply doc_section_trees_page|].
  split; [reflexivity|].
  split; [reflexivity|].
  split; [reflexivity|].
  unfold render_page; rewrite !body_render_layout.
  apply perm_skip, Permutation_map, Hperm.
Qed.

(** Witness of C4: the index page and its reversal. *)
Lemma page_order_preserved_witness :
  Permutation index_items (rev index_items) /\
  doc_section_trees (render_page planned_content index_props index_items) =
    map (render_section_node planned_content) (declared_sections index_items) /\
  doc_section_trees (render_page planned_content index_props (rev index_items)) =
    map (render_section_node planned_content) (declared_sections (rev index_items)) /\
  head_of (render_page planned_content index_props (rev index_items)) =
    head_of (render_page planned_content index_props index_items) /\
  body_of (render_page planned_content index_props index_items) =
    skip_anchor :: map (render_item planned_content) index_items /\
  body_of (render_page planned_content index_props (rev index_items)) =
    skip_anchor :: map (render_item planned_content) (rev index_items) /\
  Permutation (body_of (render_page planned_content index_props index_items))
              (body_of (render_page planned_content index_props (rev index_items))).
Proof.
  split; [apply Permutation_rev|].
  apply (page_order_preserved planned_content index_props index_items (rev index_items)).
  apply Permutation_rev.
Defined.

(** ** C5: the skip-navigation link *)

Lemma count_links_elem (h t : string) (attrs : list (string * string)) (kids : list node) :
  count_links h (Elem t attrs kids) =
  (if String.eqb t "a" && existsb (fun kv => String.eqb (fst kv) "href" && String.eqb (snd kv) h) attrs
   then 1 else 0) + count_links_list h kids.
Proof. simpl. repeat f_equal. Qed.

Lemma count_links_head (p : Props) :
  count_links_list ("#" ++ skip_target) (layout_head p) = 0.
Proof. reflexivity. Qed.

(** C5 (amended). The layout puts exactly one skip link in every page: the
    first child of [<body>], right before the page's content, with
    [href="#conteudo-principal"], provided the page's own markup links
    nowhere else to that fragment. The target is whatever element of the
    page carries [id="conteudo-principal"]; on the index page this is the
    [<main>] element. *)
Theorem layout_single_skip_link (c : section_kind -> list node) (p : Props) (items : list item)
    (Hno : count_links_list ("#" ++ skip_target) (map (render_item c) items) = 0) :
  body_of (render_page c p items) = skip_anchor :: map (render_item c) items /\
  href_of skip_anchor = Some ("#" ++ skip_target) /\
  count_links ("#" ++ skip_target) (render_page c p items) = 1 /\
  option_map tag_of (find_id skip_target index_document) = Some "main".
Proof.
  split; [reflexivity|].
  split; [reflexivity|].
  split; [|vm_compute; reflexivity].
  unfold render_page, render_layout.
  rewrite count_links_elem. unfold count_links_list at 1. cbn [fold_right].
  rewrite (count_links_elem _ "head"), (count_links_elem _ "body"), count_links_head.
  unfold count_links_list at 1. cbn [fold_right].
  fold (count_links_list ("#" ++ skip_target) (map (render_item c) items)).
  rewrite Hno. reflexivity.
Qed.

(** Witness of C5: the index page. *)
Lemma layout_single_skip_link_witness :
  count_links_list ("#" ++ skip_target) (map (render_item planned_content) index_items) = 0 /\
  body_of (render_page planned_content index_props index_items) =
    skip_anchor :: map (render_item planned_content) index_items /\
  href_of skip_anchor = Some ("#" ++ skip_target) /\
  count_links ("#" ++ skip_target) (render_page planned_content index_props index_items) = 1 /\
  option_map tag_of (find_id skip_target index_document) = Some "main".
Proof.
  split; [vm_compute; reflexivity|].
  apply (layout_single_skip_link planned_content index_props index_items).
  vm_compute; reflexivity.
Defined.

(** C5 (counterexample). On the index page the first landmark-bearing
    element is the [<header>] of [Header]; the skip link targets the
    [<main>] element that follows it. *)
Lemma skip_link_not_first_landmark :
  option_map tag_of (first_landmark_list (body_of index_document)) = Some "header" /\
  option_map tag_of (find_id skip_target index_document) = Some "main" /\
  href_of skip_anchor = Some ("#" ++ skip_target).
Proof. split; [|split]; vm_compute; reflexivity. Qed.

(** ** The output directory *)

Lemma find_filter {A : Type} (f g : A -> bool) (l : list A) :
  (forall x, f x = true -> g x = true) -> find f (filter g l) = find f l.
Proof.
  intros H; induction l as [|x l IH]; [reflexivity|].
  simpl. destruct (g x) eqn:G; simpl.
  - destruct (f x); [reflexivity | exact IH].
  - destruct (f x) eqn:F; [rewrite (H x F) in G; discriminate | exact IH].
Qed.

Lemma lookup_write_file (d : list artifact) (a : artifact) (p : string) :
  lookup_path (write_file d a) p =
  if String.eqb (logical_path a) p then Some a else lookup_path d p.
Proof.
  unfold lookup_path, write_file. simpl.
  destruct (String.eqb (logical_path a) p) eqn:E; [reflexivity|].
  apply find_filter. intros x Hx. apply String.eqb_eq in Hx. rewrite Hx.
  now rewrite String.eqb_sym, E.
Qed.

Lemma lookup_write_all_notin (d l : list artifact) (p : string) :
  (forall b, In b l -> logical_path b <> p) -> lookup_path (write_all d l) p = lookup_path d p.
Proof.
  revert d; induction l as [|x l IH]; intros d H; [reflexivity|].
  unfold write_all; simpl; fold (write_all (write_file d x) l).
  rewrite IH by (intros b Hb; apply H; now right).
  rewrite lookup_write_file.
  destruct (String.eqb (logical_path x) p) eqn:E; [|reflexivity].
  apply String.eqb_eq in E. exfalso. exact (H x (or_introl eq_refl) E).
Qed.

Lemma lookup_write_all_last (d l1 l2 : list artifact) (a : artifact) :
  (forall b, In b l2 -> logical_path b <> logical_path a) ->
  lookup_path (write_all d (l1 ++ₗ a :: l2)) (logical_path a) = Some a.
Proof.
  intros H. unfold write_all. rewrite fold_left_app. simpl.
  fold (write_all (write_file (fold_left write_file l1 d) a) l2).
  rewrite lookup_write_all_notin by exact H.
  rewrite lookup_write_file, String.eqb_refl. reflexivity.
Qed.


Lemma lookup_in (d : list artifact) (p : string) (a : artifact) :
  lookup_path d p = Some a -> In a d /\ logical_path a = p.
Proof.
  unfold lookup_path. intros H. apply find_some in H as [H1 H2].
  split; [exact H1 | now apply String.eqb_eq].
Qed.




(** ** C10: the analytics script *)

(** C10. Whatever the props and the sections (interactive or not), the
    layout puts the analytics script in the document head, its source is
    non-empty, and the entry document of the build contains that source. *)
Theorem layout_always_injects_analytics (url : string -> bool) (hash : string -> string)
    (rc smi sm0 : string) (c : section_kind -> list node) (p : Props) (items : list item)
    (st : string) (vs : list variant) (pf : list (string * string)) :
  In analytics_script (head_of (render_page c p items)) /\
  analytics_source <> EmptyString /\
  In (mkArtifact "/index.html" EntryDocument (serialize url (render_page c p items)) false)
     (build url hash rc smi sm0 c p items st vs pf) /\
  contains analytics_source (serialize url (render_page c p items)) = true.
Proof.
  assert (Hin : In analytics_script (layout_head p)).
  { unfold layout_head. apply in_or_app; right. apply in_or_app; right. now left. }
  split; [exact Hin|].
  split; [discriminate|].
  split; [unfold build; apply in_or_app; right; now left|].
  unfold render_page, render_layout. rewrite serialize_elem.
  do 4 apply contains_app_r. apply contains_app_l.
  apply (contains_serialize_list _ _ (Elem "head" [] (layout_head p))); [now left|].
  rewrite serialize_elem.
  do 4 apply contains_app_r. apply contains_app_l.
  apply (contains_serialize_list _ _ analytics_script); [exact Hin|].
  vm_compute; reflexivity.
Qed.

(** ** C1: runtime elision *)

Lemma runtime_elision_check_spec (ss : list SectionNode) (arts : list artifact) :
  runtime_elision_check ss arts = UnexpectedRuntime <->
  (forall s, In s ss -> interactive s = false) /\
  (exists a, In a arts /\ akind a = ScriptBundle /\ runtime a = true).
Proof.
  unfold runtime_elision_check.
  destruct (forallb (fun s => negb (interactive s)) ss) eqn:F;
  destruct (existsb (fun a => match akind a with ScriptBundle => runtime a | _ => false end) arts) eqn:X;
  simpl; split; intros H; try discriminate.
  - split.
    + intros s Hs. rewrite forallb_forall in F. apply negb_true_iff, (F s Hs).
    + apply existsb_exists in X as [a [Ha Hr]].
      exists a. destruct (akind a); try discriminate. auto.
  - reflexivity.
  - exfalso. destruct H as [_ [a [Ha [Hk Hr]]]].
    assert (existsb (fun a => match akind a with ScriptBundle => runtime a | _ => false end) arts = true)
      by (apply existsb_exists; exists a; rewrite Hk; auto).
    congruence.
  - exfalso. destruct H as [Hs _].
    assert (forallb (fun s => negb (interactive s)) ss = true)
      by (apply forallb_forall; intros s Hin; rewrite (Hs s Hin); reflexivity).
    congruence.
  - exfalso. destruct H as [Hs _].
    assert (forallb (fun s => negb (interactive s)) ss = true)
      by (apply forallb_forall; intros s Hin; rewrite (Hs s Hin); reflexivity).
    congruence.
Qed.

(** C1 (the failing input). On the index page no section carries a
    [client:*] directive, yet the output directory holds the React
    renderer's client bundle, a script that carries component runtime,
    and the Runtime Elision Check fails with [UnexpectedRuntime]. *)
Theorem index_build_ships_react_renderer (url : string -> bool) (hash : string -> string)
    (rc smi sm0 : string) (c : section_kind -> list node) (p : Props) (st : string)
    (pf : list (string * string)) :
  forallb (fun s => negb (interactive s)) (declared_sections index_items) = true /\
  In (hashed_artifact hash ScriptBundle "client" ".js" rc true)
     (dist url hash rc smi sm0 c p index_items st [] pf) /\
  runtime_elision_check (declared_sections index_items)
    (dist url hash rc smi sm0 c p index_items st [] pf) = UnexpectedRuntime.
Proof.
  assert (Hflags : forallb (fun s => negb (interactive s)) (declared_sections index_items) = true)
    by reflexivity.
  assert (Hin : In (hashed_artifact hash ScriptBundle "client" ".js" rc true)
                   (dist url hash rc smi sm0 c p index_items st [] pf)).
  { unfold dist.
    replace (build url hash rc smi sm0 c p index_items st [] pf) with
      ((map public_artifact pf ++ₗ
          [mkArtifact "/index.html" EntryDocument (serialize url (render_page c p index_items)) false;
           hashed_artifact hash StyleBundle "index" ".css" st false]) ++ₗ
       hashed_artifact hash ScriptBundle "client" ".js" rc true :: sitemap_outputs smi sm0)
      by (unfold build, generated; rewrite <- app_assoc; reflexivity).
    apply (lookup_in _ (logical_path (hashed_artifact hash ScriptBundle "client" ".js" rc true))).
    apply lookup_write_all_last.
    intros b [<- | [<- | []]]; discriminate. }
  split; [exact Hflags|].
  split; [exact Hin|].
  apply runtime_elision_check_spec. split.
  - intros s Hs. rewrite forallb_forall in Hflags. apply negb_true_iff, (Hflags s Hs).
  - eexists; split; [exact Hin | split; reflexivity].
Qed.

(** ** C8: fixed-path root files *)






(** * Further properties of the code *)

Lemma substring_all (s : string) : substring 0 (String.length s) s = s.
Proof. induction s as [|c s IH]; simpl; [reflexivity | now rewrite IH]. Qed.

Lemma has_char_app (c : ascii) (a b : string) :
  has_char c (a ++ b) = has_char c a || has_char c b.
Proof. induction a as [|d a IH]; simpl; [reflexivity | now rewrite IH, orb_assoc]. Qed.

(** Escaped text never holds a character that opens or closes markup or
    quotes: an [{expr}] child such as [{title}] cannot inject tags. *)
Theorem escape_text_no_markup (s : string) :
  has_char "<" (escape_text s) = false /\
  has_char ">" (escape_text s) = false /\
  has_char dq_c (escape_text s) = false /\
  has_char "'" (escape_text s) = false.
Proof.
  induction s as [|c r [IH1 [IH2 [IH3 IH4]]]]; [repeat split|].
  cbn [escape_text]. rewrite !has_char_app, IH1, IH2, IH3, IH4. rewrite !orb_false_r.
  unfold escape_text_char.
  destruct (Ascii.eqb c "&"); [repeat split|].
  destruct (Ascii.eqb c "<") eqn:E1; [repeat split|].
  destruct (Ascii.eqb c ">") eqn:E2; [repeat split|].
  destruct (Ascii.eqb c dq_c) eqn:E3; [repeat split|].
  destruct (Ascii.eqb c "'") eqn:E4; [repeat split|].
  cbn [has_char]. rewrite !orb_false_r.
  rewrite !(Ascii.eqb_sym _ c), E1, E2, E3, E4. repeat split.
Qed.

Lemma escape_attr_no_quote (s : string) : has_char dq_c (escape_attr s) = false.
Proof.
  induction s as [|c r IH]; [reflexivity|].
  cbn [escape_attr]. rewrite has_char_app, IH, orb_false_r.
  unfold escape_attr_char.
  destruct (Ascii.eqb c "&"); [reflexivity|].
  destruct (Ascii.eqb c dq_c) eqn:E; [reflexivity|].
  cbn [has_char]. now rewrite orb_false_r, Ascii.eqb_sym, E.
Qed.

(** The description attribute [content={description}] cannot end early
    unless the description holds [&] and is taken for an http(s) URL:
    otherwise it is a bare [content] (empty description) or a quoted value
    with no double quote inside, which decodes to the description. *)
Theorem description_attr_closed (url : string -> bool) (d : string)
    (Hnourl : has_char "&" d && url d = false) :
  (d = EmptyString /\ add_attribute url "content" d = " content") \/
  (exists v, add_attribute url "content" d = " content=" ++ dq ++ v ++ dq /\
             has_char dq_c v = false /\ decode v = d).
Proof.
  rewrite add_attribute_content, Hnourl.
  destruct (String.eqb d "") eqn:E.
  - left. apply String.eqb_eq in E. now split.
  - right. exists (escape_attr d).
    split; [reflexivity|]. split; [apply escape_attr_no_quote | apply decode_escape_attr].
Qed.

(** Witness: a description holding [&] that is not a URL. *)
Lemma description_attr_closed_witness :
  has_char "&" "Psicologia & escuta" && (fun _ => false) "Psicologia & escuta" = false /\
  ((("Psicologia & escuta" = EmptyString /\
     add_attribute (fun _ => false) "content" "Psicologia & escuta" = " content")) \/
   (exists v, add_attribute (fun _ => false) "content" "Psicologia & escuta" =
                " content=" ++ dq ++ v ++ dq /\
              has_char dq_c v = false /\ decode v = "Psicologia & escuta")).
Proof.
  split; [reflexivity|].
  apply (description_attr_closed (fun _ => false) "Psicologia & escuta").
  reflexivity.
Defined.

Lemma prefix_true (a b : string) : prefix a b = true -> exists r, b = a ++ r.
Proof.
  revert b; induction a as [|c a IH]; intros b H; [now exists b|].
  destruct b as [|d b]; [discriminate|].
  simpl in H. destruct (Ascii.ascii_dec c d) as [<-|]; [|discriminate].
  destruct (IH b H) as [r ->]. now exists r.
Qed.

Lemma get_substitution_plain (m b a r : string) :
  has_char "$" r = false -> get_substitution m b a r = r.
Proof.
  induction r as [|c r IH]; intros H; [reflexivity|].
  cbn [has_char] in H. apply orb_false_iff in H as [H1 H2].
  cbn [get_substitution]. rewrite Ascii.eqb_sym, H1. now rewrite IH.
Qed.

(** The [@] alias rewrites [@/rest] to [rest] under the absolute [src]
    directory, when that path holds no [$] (which [String.replace] would
    expand as a pattern). *)
Theorem alias_resolves_src_paths (src rest : string) (Hsrc : has_char "$" src = false) :
  resolve_alias (vite_aliases src) ("@/" ++ rest) = src ++ "/" ++ rest /\
  resolve_alias (vite_aliases src) "@" = src.
Proof.
  split.
  - unfold resolve_alias, vite_aliases, alias_matches. simpl.
    destruct rest as [|c r]; simpl; unfold js_replace; simpl;
      rewrite get_substitution_plain by exact Hsrc; [reflexivity|].
    now rewrite substring_all.
  - unfold resolve_alias, vite_aliases, alias_matches. simpl.
    unfold js_replace; simpl.
    rewrite get_substitution_plain by exact Hsrc. apply str_app_empty_r.
Qed.

(** Witness: a checkout under [/repo]. *)
Lemma alias_resolves_src_paths_witness :
  has_char "$" "/repo/src" = false /\
  resolve_alias (vite_aliases "/repo/src") ("@/" ++ "components/sections/Header.astro") =
    "/repo/src" ++ "/" ++ "components/sections/Header.astro" /\
  resolve_alias (vite_aliases "/repo/src") "@" = "/repo/src".
Proof.
  split; [reflexivity|].
  apply (alias_resolves_src_paths "/repo/src" "components/sections/Header.astro").
  reflexivity.
Defined.

(** Every other import id is left as it is, in particular the scoped
    package names ([@vercel/analytics], [@fontsource-variable/dm-sans],
    [@astrojs/react]) the project imports. *)
Theorem alias_keeps_other_ids (src id : string)
    (Hat : id <> "@") (Hslash : forall rest, id <> "@/" ++ rest) :
  resolve_alias (vite_aliases src) id = id.
Proof.
  unfold resolve_alias, vite_aliases. simpl.
  unfold alias_matches.
  destruct (Nat.ltb (String.length id) (String.length "@")); [reflexivity|].
  destruct (String.eqb id "@") eqn:E; [apply String.eqb_eq in E; contradiction|].
  destruct (prefix ("@" ++ "/") id) eqn:P; [|reflexivity].
  apply prefix_true in P as [r ->]. exfalso. exact (Hslash r eq_refl).
Qed.

(** Witness: the analytics package is not rewritten. *)
Lemma alias_keeps_other_ids_witness :
  "@vercel/analytics" <> "@" /\
  (forall rest, "@vercel/analytics" <> "@/" ++ rest) /\
  resolve_alias (vite_aliases "/repo/src") "@vercel/analytics" = "@vercel/analytics".
Proof.
  assert (H1 : "@vercel/analytics" <> "@") by discriminate.
  assert (H2 : forall rest, "@vercel/analytics" <> "@/" ++ rest) by (intros rest H; discriminate H).
  split; [exact H1|]. split; [exact H2|].
  apply (alias_keeps_other_ids "/repo/src" "@vercel/analytics" H1 H2).
Defined.

(** A page rendered without props carries the default title and
    description byte for byte: they hold no character the escapers
    rewrite. *)
Theorem default_metadata_verbatim (url : string -> bool) (c : section_kind -> list node)
    (items : list item) :
  contains ("<title>" ++ default_title ++ "</title>")
    (serialize url (render_page c (mkProps None None) items)) = true /\
  contains ("content=" ++ dq ++ default_description ++ dq)
    (serialize url (render_page c (mkProps None None) items)) = true.
Proof.
  unfold render_page, render_layout.
  split; rewrite serialize_elem;
    do 4 apply contains_app_r; apply contains_app_l;
    apply (contains_serialize_list _ _ (Elem "head" [] (layout_head (mkProps None None)))); try (now left);
    rewrite serialize_elem; do 4 apply contains_app_r; apply contains_app_l.
  - apply (contains_serialize_list _ _ (Elem "title" [] [Text default_title])); [simpl; tauto|].
    vm_compute; reflexivity.
  - apply (contains_serialize_list _ _
             (Elem "meta" [("name", "description"); ("content", default_description)] []));
      [simpl; tauto|].
    vm_compute; reflexivity.
Qed.
